(** * scripts/transform_for_bq.py: LocationGeo to WKT, record by record

    A shallow embedding of [transform_record] and [main] together with the
    properties of the specification that concern them.

    Python objects decoded by [json.loads] are modelled by the inductive type
    [value]; a [str] is a sequence of Unicode code points; a [dict] is an
    association list in insertion order.  The in-place update of the record
    and the exceptions of the interpreter are threaded through a small
    state-and-exception monad. *)

From Stdlib Require Import String Ascii ZArith NArith Bool Arith Lia.
From Stdlib Require DecimalPos DecimalZ.
From Stdlib Require Import DecimalString SpecFloat List.
Import ListNotations.

Set Implicit Arguments.

(** ** Python strings *)

Module PyStr.

(** A Python [str]: the sequence of its code points. *)
Definition codepoint := N.
Definition pystr := list codepoint.

(** A literal of the source, written with ASCII characters only. *)
Definition lit (s : string) : pystr :=
  List.map N_of_ascii (list_ascii_of_string s).

Fixpoint eqb (s t : pystr) : bool :=
  match s, t with
  | [], [] => true
  | c :: s', d :: t' => N.eqb c d && eqb s' t'
  | _, _ => false
  end.

(** [str.isspace] on one character (the interpreter's whitespace table). *)
Definition isspace (c : codepoint) : bool :=
  ((9 <=? c) && (c <=? 13)
   || (28 <=? c) && (c <=? 32)
   || (c =? 133) || (c =? 160) || (c =? 5760)
   || (8192 <=? c) && (c <=? 8202)
   || (c =? 8232) || (c =? 8233) || (c =? 8239) || (c =? 8287)
   || (c =? 12288))%N.

Fixpoint lstrip (s : pystr) : pystr :=
  match s with
  | c :: s' => if isspace c then lstrip s' else s
  | [] => []
  end.

Definition rstrip (s : pystr) : pystr := rev (lstrip (rev s)).

(** [s.strip()]: leading and trailing whitespace removed. *)
Definition strip (s : pystr) : pystr := rstrip (lstrip s).

Fixpoint startswith (s p : pystr) : bool :=
  match p, s with
  | [], _ => true
  | d :: p', c :: s' => N.eqb c d && startswith s' p'
  | _ :: _, [] => false
  end.

(** [p in s] for two strings: [p] occurs in [s] as a substring. *)
Fixpoint contains (s p : pystr) : bool :=
  startswith s p
  || match s with
     | [] => false
     | _ :: s' => contains s' p
     end.

(** [sep.join(parts)]. *)
Fixpoint join (sep : pystr) (parts : list pystr) : pystr :=
  match parts with
  | [] => []
  | [p] => p
  | p :: ps => p ++ sep ++ join sep ps
  end.

(** [str(n)] for an [int]. *)
Definition of_int (n : Z) : pystr := lit (NilZero.string_of_int (Z.to_int n)).

End PyStr.

Import PyStr.

(** ** Decoded JSON values *)

Local Set Warnings "-register-all".

(** What [json.loads] can return: [None], [bool], [int], [float], [str],
    [list] and [dict] (keys are strings, insertion order is kept). *)
Inductive value : Type :=
| VNone
| VBool (b : bool)
| VInt (n : Z)
| VFloat (x : spec_float)
| VStr (s : pystr)
| VList (items : list value)
| VDict (entries : list (pystr * value)).

Definition dict := list (pystr * value).

(** The exceptions that the two functions can meet. *)
Inductive exn : Type :=
| TypeError
| KeyError (key : pystr)
| JSONDecodeError.

Inductive result (A : Type) : Type :=
| Ok (a : A)
| Raise (e : exn).

Arguments Ok {A} a.
Arguments Raise {A} e.

(** [bool(v)], the truth value tested by [if] and [and]. *)
Definition truthy (v : value) : bool :=
  match v with
  | VNone => false
  | VBool b => b
  | VInt n => negb (Z.eqb n 0)
  | VFloat (S754_zero _) => false
  | VFloat _ => true
  | VStr [] => false
  | VStr (_ :: _) => true
  | VList [] => false
  | VList (_ :: _) => true
  | VDict [] => false
  | VDict (_ :: _) => true
  end.

(** *** Dictionaries *)

Fixpoint lookup (k : pystr) (d : dict) : option value :=
  match d with
  | [] => None
  | (k', v) :: d' => if PyStr.eqb k' k then Some v else lookup k d'
  end.

(** [d[k] = v]: the entry of an existing key is overwritten where it stands,
    a new key is appended. *)
Fixpoint update (k : pystr) (v : value) (d : dict) : dict :=
  match d with
  | [] => [(k, v)]
  | (k', v') :: d' =>
      if PyStr.eqb k' k then (k', v) :: d' else (k', v') :: update k v d'
  end.

(** [k in obj] for a string [k]: membership in a [dict], element of a
    [list], substring of a [str]; the other types are not containers. *)
Definition py_in (k : pystr) (obj : value) : result bool :=
  match obj with
  | VDict d => Ok (match lookup k d with Some _ => true | None => false end)
  | VList l =>
      Ok (existsb (fun x => match x with
                            | VStr s => PyStr.eqb s k
                            | _ => false
                            end) l)
  | VStr s => Ok (PyStr.contains s k)
  | _ => Raise TypeError
  end.

(** [isinstance(v, dict)]. *)
Definition is_mapping (v : value) : bool :=
  match v with
  | VDict _ => true
  | _ => false
  end.

(** The decoded values that are no containers: [None], [bool], [int] and
    [float]. *)
Definition is_scalar (v : value) : bool :=
  match v with
  | VNone | VBool _ | VInt _ | VFloat _ => true
  | VStr _ | VList _ | VDict _ => false
  end.

(** [obj[k]] for a string [k]: only a [dict] can be indexed by a string. *)
Definition getitem (obj : value) (k : pystr) : result value :=
  match obj with
  | VDict d =>
      match lookup k d with
      | Some v => Ok v
      | None => Raise (KeyError k)
      end
  | _ => Raise TypeError
  end.

(** [obj[k] = v] for a string [k]. *)
Definition setitem (obj : value) (k : pystr) (v : value) : result value :=
  match obj with
  | VDict d => Ok (VDict (update k v d))
  | _ => Raise TypeError
  end.

(** ** State and exceptions *)

(** A computation over a mutable object of type [St]: it ends with a value
    or an exception, and with the object as it then is. *)
Definition M (St A : Type) : Type := St -> result A * St.

Definition ret {St A} (a : A) : M St A := fun s => (Ok a, s).

Definition bind {St A B} (m : M St A) (f : A -> M St B) : M St B :=
  fun s =>
    match m s with
    | (Ok a, s') => f a s'
    | (Raise e, s') => (Raise e, s')
    end.

Definition get {St} : M St St := fun s => (Ok s, s).

(** An expression that reads the object and may raise. *)
Definition eval {St A} (f : St -> result A) : M St A := fun s => (f s, s).

(** A statement that replaces the object unless it raises. *)
Definition exec {St} (f : St -> result St) : M St unit :=
  fun s =>
    match f s with
    | Ok s' => (Ok tt, s')
    | Raise e => (Raise e, s)
    end.

Declare Scope py_scope.
Delimit Scope py_scope with py.
Notation "x <- m ;; k" := (bind m (fun x => k))
  (at level 61, m at next level, right associativity) : py_scope.
Notation "m ;; k" := (bind m (fun _ => k))
  (at level 61, right associativity) : py_scope.

Local Open Scope py_scope.

(** ** A small runtime for closed examples *)

Module Sample.

(** A display of floats good enough for examples: the special values, and a
    placeholder for the finite ones, which the examples do not use. *)
Definition float_repr (x : spec_float) : pystr :=
  match x with
  | S754_zero false => lit "0.0"
  | S754_zero true => lit "-0.0"
  | S754_infinity false => lit "inf"
  | S754_infinity true => lit "-inf"
  | S754_nan => lit "nan"
  | S754_finite _ _ _ => lit "<float>"
  end.

Definition quote : pystr := [34%N].

(** Quoting without escapes, enough for the strings of the examples. *)
Definition str_repr (s : pystr) : pystr := lit "'" ++ s ++ lit "'".

Definition json_str (s : pystr) : pystr := quote ++ s ++ quote.

(** An encoder for values whose strings need no escape. *)
Fixpoint dumps (v : value) : pystr :=
  match v with
  | VNone => lit "null"
  | VBool true => lit "true"
  | VBool false => lit "false"
  | VInt n => of_int n
  | VFloat x => float_repr x
  | VStr s => json_str s
  | VList l => lit "[" ++ join (lit ", ") (List.map dumps l) ++ lit "]"
  | VDict d =>
      lit "{"
      ++ join (lit ", ")
           (List.map (fun kv => match kv with
                                | (k, x) => json_str k ++ lit ": " ++ dumps x
                                end) d)
      ++ lit "}"
  end.

Definition rec_id : value := VDict [(lit "id", VInt 3)].

Definition rec_geo : value :=
  VDict [(lit "id", VInt 1);
         (lit "LocationGeo",
          VDict [(lit "latitude", VInt 37); (lit "longitude", VInt (-122))])].

Definition rec_null : value :=
  VDict [(lit "id", VInt 2); (lit "LocationGeo", VNone)].

Definition newline : pystr := [10%N].

(** A decoder that knows the lines of the examples and rejects the rest. *)
Definition loads (line : pystr) : option value :=
  let text := strip line in
  if PyStr.eqb text (dumps rec_id) then Some rec_id
  else if PyStr.eqb text (dumps rec_geo) then Some rec_geo
  else if PyStr.eqb text (dumps rec_null) then Some rec_null
  else None.

Definition stdin : list pystr :=
  [dumps rec_geo ++ newline; lit "  " ++ newline; dumps rec_null ++ newline;
   newline; dumps rec_id].

Definition rec_geo_wkt : value :=
  VDict [(lit "id", VInt 1); (lit "LocationGeo", VStr (lit "POINT(-122 37)"))].

Definition stdout : list pystr := [dumps rec_geo_wkt; dumps rec_null; dumps rec_id].

Definition rec_no_lon : value :=
  VDict [(lit "id", VInt 4); (lit "LocationGeo", VDict [(lit "latitude", VInt 1)])].

Definition rec_text : value :=
  VDict [(lit "id", VInt 5); (lit "LocationGeo", VStr (lit "here"))].

Definition rec_zero : value :=
  VDict [(lit "id", VInt 6); (lit "LocationGeo", VInt 0)].

End Sample.

(** Further sample records and a decoder that knows them too. *)
Module MoreSamples.

Definition rec_altitude : value :=
  VDict [(lit "id", VInt 8);
         (lit "LocationGeo",
          VDict [(lit "altitude", VInt 5); (lit "latitude", VInt 37);
                 (lit "longitude", VInt (-122))])].

Definition rec_no_coords : value :=
  VDict [(lit "id", VInt 9);
         (lit "LocationGeo", VDict [(lit "altitude", VInt 5)])].

Definition loads (line : pystr) : option value :=
  let text := strip line in
  if PyStr.eqb text (lit "7") then Some (VInt 7)
  else if PyStr.eqb text (Sample.dumps Sample.rec_no_lon)
       then Some Sample.rec_no_lon
       else Sample.loads line.

End MoreSamples.

Section Runtime.

(** Parts of the Python runtime that the script uses and does not define:
    the textual form of a [float], the [repr] of a [str], and the [json]
    decoder and encoder. *)
Variable float_repr : spec_float -> pystr.
Variable str_repr : pystr -> pystr.
Variable loads : pystr -> option value.
Variable dumps : value -> pystr.

(** [repr(v)]. *)
Fixpoint repr (v : value) : pystr :=
  match v with
  | VNone => lit "None"
  | VBool true => lit "True"
  | VBool false => lit "False"
  | VInt n => of_int n
  | VFloat x => float_repr x
  | VStr s => str_repr s
  | VList l => lit "[" ++ join (lit ", ") (List.map repr l) ++ lit "]"
  | VDict d =>
      lit "{"
      ++ join (lit ", ")
           (List.map (fun kv => match kv with
                                | (k, x) => str_repr k ++ lit ": " ++ repr x
                                end) d)
      ++ lit "}"
  end.

(** [format(v, '')], what a replacement field [{v}] of an f-string
    produces: a [str] stands for itself, anything else for its [repr]. *)
Definition format (v : value) : pystr :=
  match v with
  | VStr s => s
  | _ => repr v
  end.

Definition LocationGeo : pystr := lit "LocationGeo".
Definition latitude : pystr := lit "latitude".
Definition longitude : pystr := lit "longitude".

(** [f"POINT({lon} {lat})"] *)
Definition wkt_point (lon lat : value) : pystr :=
  lit "POINT(" ++ format lon ++ lit " " ++ format lat ++ lit ")".

(** [transform_record(record)].  The state is the object bound to
    [record]; the value returned is that same object. *)
Definition transform_record : M value value :=
  present <- eval (py_in LocationGeo) ;;
  test <- (if present : bool
           then g <- eval (fun record => getitem record LocationGeo) ;;
                ret (truthy g)
           else ret false) ;;
  (if test : bool
   then
     g <- eval (fun record => getitem record LocationGeo) ;;
     lat <- eval (fun _ => getitem g latitude) ;;
     g <- eval (fun record => getitem record LocationGeo) ;;
     lon <- eval (fun _ => getitem g longitude) ;;
     exec (fun record =>
             setitem record LocationGeo (VStr (wkt_point lon lat)))
   else ret tt) ;;
  get.

(** [print(s)]: one more line on standard output. *)
Definition print (s : pystr) : M (list pystr) unit :=
  fun stdout => (Ok tt, stdout ++ [s]).

(** A call: the callee works on the object passed to it; its value or its
    exception comes back to the caller. *)
Definition call {St Obj A} (f : M Obj A) (arg : Obj) : M St A :=
  fun s => (fst (f arg), s).

(** The body of the loop of [main] for one line of standard input. *)
Definition main_body (line : pystr) : M (list pystr) unit :=
  if truthy (VStr (strip line))
  then
    record <- eval (fun _ => match loads line with
                             | Some v => Ok v
                             | None => Raise JSONDecodeError
                             end) ;;
    transformed <- call transform_record record ;;
    print (dumps transformed)
  else ret tt.

(** [for line in sys.stdin: ...] *)
Fixpoint for_each {St} (lines : list pystr) (body : pystr -> M St unit)
  : M St unit :=
  match lines with
  | [] => ret tt
  | line :: rest => body line ;; for_each rest body
  end.

(** [main()], over the lines of standard input; the state is what has been
    written to standard output. *)
Definition main (stdin : list pystr) : M (list pystr) unit :=
  for_each stdin main_body.

(** *** Vocabulary of the specification for the driver *)

(** A blank line: every character of it is whitespace. *)
Definition whitespace_only (line : pystr) : bool := forallb isspace line.

Definition blank_lines (lines : list pystr) : list pystr :=
  filter whitespace_only lines.

Definition non_blank_lines (lines : list pystr) : list pystr :=
  filter (fun line => negb (whitespace_only line)) lines.

(** What one non-blank line is to become: the encoding of the transformed
    record decoded from it, or the exception met on the way. *)
Definition processed (line : pystr) : result pystr :=
  match loads line with
  | None => Raise JSONDecodeError
  | Some record =>
      match fst (transform_record record) with
      | Ok transformed => Ok (dumps transformed)
      | Raise e => Raise e
      end
  end.

(** An error-free stream: every non-blank line decodes and transforms. *)
Definition error_free (lines : list pystr) : bool :=
  forallb (fun line => match processed line with
                       | Ok _ => true
                       | Raise _ => false
                       end)
          (non_blank_lines lines).

(** ** Strings and dictionaries: basic facts *)

Lemma eqb_eq (s t : pystr) : PyStr.eqb s t = true <-> s = t.
Proof.
  revert t; induction s as [|c s IH]; intros [|d t]; simpl;
    try (split; [discriminate | congruence]); [tauto|].
  rewrite andb_true_iff, N.eqb_eq, IH.
  split; [intros [-> ->]; reflexivity | intros [= -> ->]; auto].
Qed.

Lemma eqb_refl (s : pystr) : PyStr.eqb s s = true.
Proof. apply eqb_eq; reflexivity. Qed.

Lemma eqb_neq (s t : pystr) : PyStr.eqb s t = false <-> s <> t.
Proof.
  rewrite <- eqb_eq. destruct (PyStr.eqb s t); split; congruence.
Qed.

Lemma lookup_update_same k v d : lookup k (update k v d) = Some v.
Proof.
  induction d as [|[k' v'] d IH]; simpl.
  - now rewrite eqb_refl.
  - destruct (PyStr.eqb k' k) eqn:E; simpl; rewrite E; auto.
Qed.

Lemma lookup_update_other k k' v d :
  k' <> k -> lookup k' (update k v d) = lookup k' d.
Proof.
  intros Hne.
  assert (Hkk : PyStr.eqb k k' = false) by (apply eqb_neq; congruence).
  induction d as [|[k0 v0] d IH]; simpl.
  - now rewrite Hkk.
  - destruct (PyStr.eqb k0 k) eqn:E; simpl.
    + apply eqb_eq in E; subst k0. now rewrite Hkk.
    + now rewrite IH.
Qed.

(** Overwriting a key that is present keeps every entry in its place and
    changes the value of that key only. *)
Lemma update_present_frame k v d :
  lookup k d <> None ->
  Forall2 (fun old new => fst new = fst old
                          /\ (fst old <> k -> snd new = snd old))
          d (update k v d).
Proof.
  induction d as [|[k0 v0] d IH]; simpl; [congruence|].
  destruct (PyStr.eqb k0 k) eqn:E; intros Hin.
  - constructor.
    + simpl; split; auto. apply eqb_eq in E. congruence.
    + clear. induction d; constructor; auto.
  - constructor; auto.
Qed.

Lemma Forall2_fst_map (d d' : dict) (P : pystr * value -> pystr * value -> Prop) :
  (forall a b, P a b -> fst b = fst a) ->
  Forall2 P d d' -> List.map fst d' = List.map fst d.
Proof.
  intros HP H; induction H; simpl; auto.
  f_equal; auto.
Qed.

(** ** [transform_record] on a dictionary, branch by branch *)

Lemma py_in_dict k d :
  py_in k (VDict d) = Ok (match lookup k d with Some _ => true | None => false end).
Proof. reflexivity. Qed.

Lemma getitem_present k d v :
  lookup k d = Some v -> getitem (VDict d) k = Ok v.
Proof. intros H; simpl; now rewrite H. Qed.

Lemma getitem_missing k d :
  lookup k d = None -> getitem (VDict d) k = Raise (KeyError k).
Proof. intros H; simpl; now rewrite H. Qed.

Ltac run_transform :=
  cbv [transform_record bind eval exec ret get]; rewrite py_in_dict.

Lemma transform_record_absent d :
  lookup LocationGeo d = None ->
  transform_record (VDict d) = (Ok (VDict d), VDict d).
Proof. intros H. run_transform. now rewrite H. Qed.

Lemma transform_record_falsy d g :
  lookup LocationGeo d = Some g -> truthy g = false ->
  transform_record (VDict d) = (Ok (VDict d), VDict d).
Proof.
  intros H Hg. run_transform.
  rewrite H, (getitem_present _ _ H), Hg. reflexivity.
Qed.

Lemma transform_record_truthy d g :
  lookup LocationGeo d = Some g -> truthy g = true ->
  transform_record (VDict d) =
    match getitem g latitude with
    | Raise e => (Raise e, VDict d)
    | Ok lat =>
        match getitem g longitude with
        | Raise e => (Raise e, VDict d)
        | Ok lon =>
            let r := VDict (update LocationGeo (VStr (wkt_point lon lat)) d)
            in (Ok r, r)
        end
    end.
Proof.
  intros H Hg. run_transform.
  rewrite H, (getitem_present _ _ H), Hg; cbv beta iota.
  rewrite (getitem_present _ _ H).
  destruct (getitem g latitude) as [lat|e]; [|reflexivity].
  destruct (getitem g longitude) as [lon|e]; reflexivity.
Qed.

Lemma lookup_some_truthy k g v :
  lookup k g = Some v -> truthy (VDict g) = true.
Proof. destruct g; [discriminate | reflexivity]. Qed.

Lemma wkt_point_truthy lon lat : truthy (VStr (wkt_point lon lat)) = true.
Proof. reflexivity. Qed.

(** ** Properties of [transform_record] *)

(** C1: when [LocationGeo] is a mapping that gives [LAT] for "latitude" and
    [LON] for "longitude", the call succeeds and the record then holds, under
    [LocationGeo], exactly the string "POINT(LON LAT)": longitude first, a
    single space, latitude second, each as the f-string renders it. *)
Theorem transform_record_wkt (d g : dict) (LAT LON : value) :
  lookup LocationGeo d = Some (VDict g) ->
  lookup latitude g = Some LAT ->
  lookup longitude g = Some LON ->
  exists d',
    transform_record (VDict d) = (Ok (VDict d'), VDict d')
    /\ lookup LocationGeo d'
       = Some (VStr (lit "POINT(" ++ format LON ++ lit " " ++ format LAT
                     ++ lit ")")).
Proof.
  intros Hd Hlat Hlon.
  exists (update LocationGeo (VStr (wkt_point LON LAT)) d). split.
  - rewrite (transform_record_truthy _ Hd (lookup_some_truthy _ _ Hlat)).
    now rewrite (getitem_present _ _ Hlat), (getitem_present _ _ Hlon).
  - apply lookup_update_same.
Qed.

(** C2: when [LocationGeo] is a truthy mapping, the record after the call
    has the same keys in the same places, and every entry under a key other
    than [LocationGeo] has the value it had; a value returned is that
    record. *)
Theorem transform_record_frame (d g : dict) :
  lookup LocationGeo d = Some (VDict g) ->
  truthy (VDict g) = true ->
  exists d',
    snd (transform_record (VDict d)) = VDict d'
    /\ (forall r, fst (transform_record (VDict d)) = Ok r -> r = VDict d')
    /\ Forall2 (fun old new => fst new = fst old
                               /\ (fst old <> LocationGeo -> snd new = snd old))
         d d'
    /\ (forall k, k <> LocationGeo -> lookup k d' = lookup k d).
Proof.
  intros Hd Hg. rewrite (transform_record_truthy _ Hd Hg).
  assert (Hsame : Forall2 (fun old new : pystr * value =>
                             fst new = fst old
                             /\ (fst old <> LocationGeo -> snd new = snd old))
                    d d).
  { clear. induction d; constructor; auto. }
  destruct (getitem (VDict g) latitude) as [lat|e].
  2:{ exists d; simpl; repeat split; auto; discriminate. }
  destruct (getitem (VDict g) longitude) as [lon|e].
  2:{ exists d; simpl; repeat split; auto; discriminate. }
  exists (update LocationGeo (VStr (wkt_point lon lat)) d); simpl.
  repeat split.
  - now intros r [= <-].
  - apply update_present_frame. congruence.
  - intros k Hk. now apply lookup_update_other.
Qed.

(** C3: a record without the key [LocationGeo], and a record whose
    [LocationGeo] is [None], is returned as it was. *)
Theorem transform_record_passthrough (d : dict) :
  lookup LocationGeo d = None \/ lookup LocationGeo d = Some VNone ->
  transform_record (VDict d) = (Ok (VDict d), VDict d).
Proof.
  intros [H|H].
  - now apply transform_record_absent.
  - now apply transform_record_falsy with (g := VNone).
Qed.

(** C6: when [LocationGeo] is a non-empty mapping without "latitude" or
    without "longitude", the call raises [KeyError] for a key that is
    missing, the record is as it was before the call, and a caller receives
    that exception. *)
Theorem transform_record_missing_key (d g : dict) :
  lookup LocationGeo d = Some (VDict g) ->
  truthy (VDict g) = true ->
  lookup latitude g = None \/ lookup longitude g = None ->
  exists k,
    (k = latitude \/ k = longitude)
    /\ lookup k g = None
    /\ transform_record (VDict d) = (Raise (KeyError k), VDict d)
    /\ forall (St : Type) (s : St),
         call transform_record (VDict d) s = (Raise (KeyError k), s).
Proof.
  intros Hd Hg Hmiss. unfold call.
  rewrite (transform_record_truthy _ Hd Hg).
  destruct (lookup latitude g) as [lat|] eqn:Hlat.
  - destruct Hmiss as [|Hlon]; [discriminate|].
    exists longitude. rewrite (getitem_present _ _ Hlat).
    rewrite (getitem_missing _ _ Hlon). auto.
  - exists latitude. rewrite (getitem_missing _ _ Hlat). auto.
Qed.

(** C7: when [LocationGeo] is truthy and is not a mapping, indexing it by
    "latitude" raises [TypeError], and so does the call. *)
Theorem transform_record_not_mapping (d : dict) (v : value) :
  lookup LocationGeo d = Some v ->
  truthy v = true ->
  is_mapping v = false ->
  getitem v latitude = Raise TypeError
  /\ transform_record (VDict d) = (Raise TypeError, VDict d).
Proof.
  intros Hd Hv Hnd.
  assert (Hty : getitem v latitude = Raise TypeError).
  { destruct v; try reflexivity. discriminate. }
  split; [exact Hty|].
  rewrite (transform_record_truthy _ Hd Hv). now rewrite Hty.
Qed.

(** C9: when [LocationGeo] holds a falsy value of any type ([None], [{}],
    [False], [0], the empty string, [[]], and whatever else [bool] maps to
    [False]), the record is returned as it was and nothing is raised. *)
Theorem transform_record_falsy_unchanged (d : dict) (v : value) :
  lookup LocationGeo d = Some v ->
  In v [VNone; VDict []; VBool false; VInt 0; VStr []; VList []]
  \/ truthy v = false ->
  transform_record (VDict d) = (Ok (VDict d), VDict d).
Proof.
  intros Hd Hv. apply transform_record_falsy with (g := v); [exact Hd|].
  destruct Hv as [Hin|Hf]; [|exact Hf].
  simpl in Hin.
  repeat (destruct Hin as [<-|Hin]; [reflexivity|]). contradiction.
Qed.

(** C10: after a successful rewrite of a coordinate mapping, a second call
    on the returned record raises [TypeError]: [LocationGeo] is then a
    non-empty string. *)
Theorem transform_record_twice (d g : dict) (LAT LON : value) :
  lookup LocationGeo d = Some (VDict g) ->
  lookup latitude g = Some LAT ->
  lookup longitude g = Some LON ->
  exists r s,
    transform_record (VDict d) = (Ok r, r)
    /\ getitem r LocationGeo = Ok (VStr s)
    /\ truthy (VStr s) = true
    /\ transform_record r = (Raise TypeError, r).
Proof.
  intros Hd Hlat Hlon.
  set (d' := update LocationGeo (VStr (wkt_point LON LAT)) d).
  assert (Hd' : lookup LocationGeo d' = Some (VStr (wkt_point LON LAT)))
    by apply lookup_update_same.
  exists (VDict d'), (wkt_point LON LAT). repeat split.
  - rewrite (transform_record_truthy _ Hd (lookup_some_truthy _ _ Hlat)).
    now rewrite (getitem_present _ _ Hlat), (getitem_present _ _ Hlon).
  - now apply getitem_present.
  - now rewrite (transform_record_truthy _ Hd' (wkt_point_truthy LON LAT)).
Qed.

(** ** The loop of [main] *)

Lemma lstrip_nil_iff s : lstrip s = [] <-> forallb isspace s = true.
Proof.
  induction s as [|c s IH]; simpl; [tauto|].
  destruct (isspace c); simpl; [exact IH|]. split; discriminate.
Qed.

Lemma lstrip_head s :
  lstrip s = [] \/ exists c t, lstrip s = c :: t /\ isspace c = false.
Proof.
  induction s as [|c s IH]; simpl; [now left|].
  destruct (isspace c) eqn:E; [exact IH|]. right; eauto.
Qed.

Lemma forallb_rev (f : codepoint -> bool) s :
  forallb f (rev s) = forallb f s.
Proof.
  induction s as [|c s IH]; simpl; [reflexivity|].
  rewrite forallb_app, IH; simpl. rewrite andb_true_r. apply andb_comm.
Qed.

(** The test of the source, [line.strip()], and the words of the
    specification, "blank or whitespace-only", select the same lines. *)
Lemma strip_nil_iff line : strip line = [] <-> whitespace_only line = true.
Proof.
  unfold strip, rstrip, whitespace_only. split.
  - intros H. apply (f_equal (@rev codepoint)) in H.
    rewrite rev_involutive in H; simpl in H.
    apply lstrip_nil_iff in H. rewrite forallb_rev in H.
    destruct (lstrip_head line) as [E|(c & t & E & Hc)].
    + now apply lstrip_nil_iff.
    + rewrite E in H; simpl in H. now rewrite Hc in H.
  - intros H. apply lstrip_nil_iff in H. now rewrite H.
Qed.

Lemma truthy_strip line :
  truthy (VStr (strip line)) = negb (whitespace_only line).
Proof.
  destruct (whitespace_only line) eqn:E.
  - apply strip_nil_iff in E. now rewrite E.
  - destruct (strip line) eqn:S; [|reflexivity].
    apply strip_nil_iff in S. congruence.
Qed.

(** One turn of the loop, case by case. *)
Lemma main_body_eq line stdout :
  main_body line stdout =
    if whitespace_only line then (Ok tt, stdout)
    else match processed line with
         | Ok out => (Ok tt, stdout ++ [out])
         | Raise e => (Raise e, stdout)
         end.
Proof.
  unfold main_body, processed. rewrite truthy_strip.
  destruct (whitespace_only line); simpl; [reflexivity|].
  cbv [bind eval call print].
  destruct (loads line) as [record|]; [|reflexivity].
  destruct (fst (transform_record record)); reflexivity.
Qed.

Lemma processed_ok line out :
  processed line = Ok out ->
  exists record transformed,
    loads line = Some record
    /\ fst (transform_record record) = Ok transformed
    /\ out = dumps transformed.
Proof.
  unfold processed. destruct (loads line) as [record|]; [|discriminate].
  destruct (fst (transform_record record)) as [t|e] eqn:E; [|discriminate].
  intros [= <-]. eauto.
Qed.

Lemma for_each_app {St} (l1 l2 : list pystr) (body : pystr -> M St unit) s :
  for_each (l1 ++ l2) body s =
    match for_each l1 body s with
    | (Ok _, s') => for_each l2 body s'
    | (Raise e, s') => (Raise e, s')
    end.
Proof.
  revert s; induction l1 as [|l l1 IH]; intros s; simpl; [reflexivity|].
  unfold bind. destruct (body l s) as [[[]|e] s']; [apply IH|reflexivity].
Qed.

(** On an error-free stream the run ends normally, having appended the
    outputs of the non-blank lines in their order. *)
Lemma main_error_free stdin : forall stdout,
  error_free stdin = true ->
  exists new,
    main stdin stdout = (Ok tt, stdout ++ new)
    /\ Forall2 (fun line out => processed line = Ok out)
               (non_blank_lines stdin) new.
Proof.
  unfold main, error_free, non_blank_lines.
  induction stdin as [|line rest IH]; intros out; simpl.
  - intros _. exists []. rewrite app_nil_r. split; constructor.
  - unfold bind at 1. rewrite main_body_eq.
    destruct (whitespace_only line); simpl; [apply IH|].
    destruct (processed line) as [o|e] eqn:Hp; [|discriminate].
    intros H. destruct (IH (out ++ [o]) H) as (new & Hrun & HF).
    exists (o :: new). rewrite <- app_assoc in Hrun. split; [exact Hrun|].
    constructor; assumption.
Qed.

(** Conversely, a run that ends normally was given an error-free stream. *)
Lemma main_ok_error_free stdin : forall stdout stdout',
  main stdin stdout = (Ok tt, stdout') -> error_free stdin = true.
Proof.
  unfold main, error_free, non_blank_lines.
  induction stdin as [|line rest IH]; intros out out'; simpl; [reflexivity|].
  unfold bind at 1. rewrite main_body_eq.
  destruct (whitespace_only line); simpl; [apply IH|].
  destruct (processed line) as [o|e]; [apply IH|discriminate].
Qed.

Lemma blank_non_blank_length lines :
  length (blank_lines lines) + length (non_blank_lines lines) = length lines.
Proof.
  unfold blank_lines, non_blank_lines.
  induction lines as [|l lines IH]; simpl; [reflexivity|].
  destruct (whitespace_only l); simpl; lia.
Qed.

Lemma Forall2_nth_error {A B} (R : A -> B -> Prop) l1 l2 :
  Forall2 R l1 l2 ->
  forall i a, nth_error l1 i = Some a ->
              exists b, nth_error l2 i = Some b /\ R a b.
Proof.
  induction 1 as [|x y l1 l2 Hxy _ IH]; intros [|i] a; simpl; try discriminate.
  - intros [= <-]. eauto.
  - apply IH.
Qed.

(** ** Properties of [main] *)

(** C4: on an error-free stream of N lines, B of them blank, the run ends
    normally having written N - B lines; a turn of the loop that ends
    normally writes no line for a blank line and one line for any other. *)
Theorem main_line_count (stdin : list pystr) :
  error_free stdin = true ->
  exists stdout,
    main stdin [] = (Ok tt, stdout)
    /\ length stdout = length stdin - length (blank_lines stdin)
    /\ forall line out out',
         main_body line out = (Ok tt, out') ->
         length out' = length out + (if whitespace_only line then 0 else 1).
Proof.
  intros H. destruct (@main_error_free stdin [] H) as (new & Hrun & HF).
  exists new. split; [exact Hrun|]. split.
  - rewrite <- (Forall2_length HF).
    pose proof (blank_non_blank_length stdin). lia.
  - intros line out out'. rewrite main_body_eq.
    destruct (whitespace_only line).
    + intros [= <-]. lia.
    + destruct (processed line); [|discriminate].
      intros [= <-]. rewrite length_app; simpl. lia.
Qed.

(** C5: on an error-free stream the run ends normally; the output has as
    many lines as the input has non-blank lines, and its i-th line is the
    encoding of the transformed record decoded from the i-th non-blank input
    line. *)
Theorem main_order (stdin : list pystr) :
  error_free stdin = true ->
  exists stdout,
    main stdin [] = (Ok tt, stdout)
    /\ length stdout = length (non_blank_lines stdin)
    /\ forall i line,
         nth_error (non_blank_lines stdin) i = Some line ->
         exists record transformed,
           loads line = Some record
           /\ fst (transform_record record) = Ok transformed
           /\ nth_error stdout i = Some (dumps transformed).
Proof.
  intros H. destruct (@main_error_free stdin [] H) as (new & Hrun & HF).
  exists new. split; [exact Hrun|].
  split; [symmetry; exact (Forall2_length HF)|].
  intros i line Hi.
  destruct (Forall2_nth_error HF _ Hi) as (o & Ho & Hp).
  destruct (processed_ok _ Hp) as (record & t & Hl & Ht & ->).
  exists record, t. auto.
Qed.

(** C8: when the lines before it are processed without an exception, a
    non-blank line that the decoder rejects ends the run with
    [JSONDecodeError]; the output is then what the run over those earlier
    lines alone writes, one line for each of their non-blank lines, with
    nothing for the rejected line nor for the lines after it. *)
Theorem main_fatal_on_malformed (before after : list pystr) (bad : pystr) :
  error_free before = true ->
  whitespace_only bad = false ->
  loads bad = None ->
  exists stdout,
    main (before ++ bad :: after) [] = (Raise JSONDecodeError, stdout)
    /\ main before [] = (Ok tt, stdout)
    /\ Forall2 (fun line out => processed line = Ok out)
               (non_blank_lines before) stdout.
Proof.
  intros Hb Hnb Hbad.
  destruct (@main_error_free before [] Hb) as (new & Hrun & HF). simpl in Hrun.
  exists new. split; [|split; assumption].
  unfold main in *. rewrite for_each_app, Hrun. simpl.
  unfold bind at 1. rewrite main_body_eq, Hnb.
  unfold processed. rewrite Hbad. reflexivity.
Qed.

(** ** [transform_record] on every decoded value *)

Lemma startswith_spec s p : startswith s p = true <-> exists b, s = p ++ b.
Proof.
  revert s; induction p as [|d p IH]; intros [|c s]; simpl.
  - split; [intros _; exists []; reflexivity | reflexivity].
  - split; [intros _; exists (c :: s); reflexivity | reflexivity].
  - split; [discriminate | intros (b & Hb); discriminate].
  - rewrite andb_true_iff, N.eqb_eq, IH. split.
    + intros (-> & b & ->). eauto.
    + intros (b & [= -> ->]). eauto.
Qed.

Lemma contains_unfold s p :
  PyStr.contains s p =
    startswith s p || match s with
                      | [] => false
                      | _ :: s' => PyStr.contains s' p
                      end.
Proof. destruct s; reflexivity. Qed.

Lemma contains_spec s p :
  PyStr.contains s p = true <-> exists a b, s = a ++ p ++ b.
Proof.
  induction s as [|c s IH]; rewrite contains_unfold, orb_true_iff,
    startswith_spec.
  - split.
    + intros [(b & Hb)|]; [|discriminate]. exists [], b. exact Hb.
    + intros ([|x a] & b & Hb); [|discriminate]. left. eauto.
  - rewrite IH. split.
    + intros [(b & Hb)|(a & b & ->)].
      * exists [], b. exact Hb.
      * exists (c :: a), b. reflexivity.
    + intros ([|x a] & b & Hb).
      * left. eauto.
      * injection Hb as -> ->. right. eauto.
Qed.

Lemma existsb_str_in k l :
  existsb (fun x => match x with
                    | VStr s => PyStr.eqb s k
                    | _ => false
                    end) l = true
  <-> In (VStr k) l.
Proof.
  rewrite existsb_exists. split.
  - intros (x & Hin & Hx). destruct x; try discriminate.
    apply eqb_eq in Hx. now subst.
  - intros H. exists (VStr k). split; [exact H | apply eqb_refl].
Qed.

Lemma transform_record_str_eq s :
  transform_record (VStr s) =
    if PyStr.contains s LocationGeo then (Raise TypeError, VStr s)
    else (Ok (VStr s), VStr s).
Proof.
  cbv [transform_record bind eval exec ret get py_in].
  destruct (PyStr.contains s LocationGeo); reflexivity.
Qed.

Lemma transform_record_list_eq l :
  transform_record (VList l) =
    if existsb (fun x => match x with
                         | VStr s => PyStr.eqb s LocationGeo
                         | _ => false
                         end) l
    then (Raise TypeError, VList l)
    else (Ok (VList l), VList l).
Proof.
  cbv [transform_record bind eval exec ret get py_in].
  destruct (existsb _ l); reflexivity.
Qed.

Lemma transform_record_scalar_eq v :
  is_scalar v = true -> transform_record v = (Raise TypeError, v).
Proof. destruct v; try discriminate; reflexivity. Qed.

(** The three ways a call can end: the object untouched and returned, the
    object untouched and an exception, or the coordinate mapping replaced by
    its WKT string. *)
Lemma transform_record_cases v :
  transform_record v = (Ok v, v)
  \/ (exists e,
        transform_record v = (Raise e, v)
        /\ (e = TypeError \/ e = KeyError latitude \/ e = KeyError longitude))
  \/ (exists d g lat lon,
        v = VDict d
        /\ lookup LocationGeo d = Some (VDict g)
        /\ lookup latitude g = Some lat
        /\ lookup longitude g = Some lon
        /\ transform_record v =
             (Ok (VDict (update LocationGeo (VStr (wkt_point lon lat)) d)),
              VDict (update LocationGeo (VStr (wkt_point lon lat)) d))).
Proof.
  destruct v as [| b | n | x | s | l | d];
    try (right; left; exists TypeError; split; [reflexivity | auto]).
  - rewrite transform_record_str_eq.
    destruct (PyStr.contains s LocationGeo); [right; left; eauto | auto].
  - rewrite transform_record_list_eq.
    destruct (existsb _ l); [right; left; eauto | auto].
  - destruct (lookup LocationGeo d) as [g|] eqn:Hd.
    2:{ left. now apply transform_record_absent. }
    destruct (truthy g) eqn:Hg.
    2:{ left. now apply transform_record_falsy with (g := g). }
    rewrite (transform_record_truthy _ Hd Hg).
    destruct g as [| b | n | x | s | l | g];
      try (right; left; exists TypeError; split; [reflexivity | auto]).
    destruct (lookup latitude g) as [lat|] eqn:Hlat.
    2:{ right; left. exists (KeyError latitude).
        rewrite (getitem_missing _ _ Hlat). auto. }
    destruct (lookup longitude g) as [lon|] eqn:Hlon.
    2:{ right; left. exists (KeyError longitude).
        rewrite (getitem_present _ _ Hlat), (getitem_missing _ _ Hlon). auto. }
    right; right. exists d, g, lat, lon.
    rewrite (getitem_present _ _ Hlat), (getitem_present _ _ Hlon). auto.
Qed.

Lemma update_update k v v' d : update k v (update k v' d) = update k v d.
Proof.
  induction d as [|[k0 v0] d IH]; simpl.
  - now rewrite eqb_refl.
  - destruct (PyStr.eqb k0 k) eqn:E; simpl; rewrite E; [reflexivity|].
    now rewrite IH.
Qed.

Lemma update_changes k v d :
  lookup k d <> Some v -> update k v d <> d.
Proof.
  intros Hne Heq. apply Hne. rewrite <- Heq at 1. apply lookup_update_same.
Qed.

(** ** Further properties of [transform_record] *)

(** X1: a decoded value that is no container ([None], a [bool], an [int], a
    [float]) makes the membership test raise [TypeError]; a line of input
    that decodes to such a value ends the run there, with nothing written
    for it. *)
Theorem transform_record_scalar_fatal (v : value) :
  is_scalar v = true ->
  transform_record v = (Raise TypeError, v)
  /\ forall line rest stdout,
       whitespace_only line = false ->
       loads line = Some v ->
       main (line :: rest) stdout = (Raise TypeError, stdout).
Proof.
  intros Hv. pose proof (transform_record_scalar_eq _ Hv) as Ht.
  split; [exact Ht|].
  intros line rest out Hnb Hl. unfold main; simpl. unfold bind at 1.
  rewrite main_body_eq, Hnb. unfold processed. now rewrite Hl, Ht.
Qed.

(** X2: a decoded list is returned as it is unless the string "LocationGeo"
    is one of its elements; then indexing the list by that string raises
    [TypeError]. *)
Theorem transform_record_list (l : list value) :
  (In (VStr LocationGeo) l
   /\ transform_record (VList l) = (Raise TypeError, VList l))
  \/ (~ In (VStr LocationGeo) l
      /\ transform_record (VList l) = (Ok (VList l), VList l)).
Proof.
  rewrite transform_record_list_eq.
  destruct (existsb _ l) eqn:E.
  - left. split; [now apply existsb_str_in | reflexivity].
  - right. split; [|reflexivity].
    intros Hin. apply existsb_str_in in Hin. congruence.
Qed.

(** X3: a decoded string is returned as it is unless "LocationGeo" occurs in
    it as a substring; then indexing the string by that key raises
    [TypeError]. *)
Theorem transform_record_str (s : pystr) :
  ((exists a b, s = a ++ LocationGeo ++ b)
   /\ transform_record (VStr s) = (Raise TypeError, VStr s))
  \/ (~ (exists a b, s = a ++ LocationGeo ++ b)
      /\ transform_record (VStr s) = (Ok (VStr s), VStr s)).
Proof.
  rewrite transform_record_str_eq.
  destruct (PyStr.contains s LocationGeo) eqn:E.
  - left. split; [now apply contains_spec | reflexivity].
  - right. split; [|reflexivity].
    intros H. apply contains_spec in H. congruence.
Qed.

(** X4: whatever the argument, a call that raises leaves the object as it
    was, and the exception is [TypeError], [KeyError] for "latitude" or
    [KeyError] for "longitude". *)
Theorem transform_record_raise_frame (v : value) (e : exn) :
  fst (transform_record v) = Raise e ->
  transform_record v = (Raise e, v)
  /\ (e = TypeError \/ e = KeyError latitude \/ e = KeyError longitude).
Proof.
  destruct (transform_record_cases v)
    as [H | [(e' & H & He') | (d & g & lat & lon & _ & _ & _ & _ & H)]];
    rewrite H; simpl; intros [= <-]. auto.
Qed.

(** X5: whatever the argument, the value returned is the object itself in
    its final state.  A second call on it returns it again when the first
    call changed nothing, and raises [TypeError] when the first call wrote a
    WKT string. *)
Theorem transform_record_again (v r : value) :
  fst (transform_record v) = Ok r ->
  snd (transform_record v) = r
  /\ ((r = v /\ transform_record r = (Ok r, r))
      \/ (r <> v /\ transform_record r = (Raise TypeError, r))).
Proof.
  destruct (transform_record_cases v)
    as [H | [(e' & H & He') | (d & g & lat & lon & -> & Hd & _ & _ & H)]];
    rewrite H; simpl; intros [= <-].
  - split; [reflexivity|]. left. auto.
  - split; [reflexivity|]. right. split.
    + intros [= Heq]. revert Heq. apply update_changes. congruence.
    + rewrite (transform_record_truthy _
                 (lookup_update_same LocationGeo _ d)
                 (wkt_point_truthy lon lat)).
      reflexivity.
Qed.

(** X6: whatever the outcome, a value that is not a dictionary is left as
    it was, and a dictionary keeps its keys in their places and the value of
    every key other than [LocationGeo]. *)
Theorem transform_record_shape (v : value) :
  (is_mapping v = false /\ snd (transform_record v) = v)
  \/ (exists d d',
        v = VDict d
        /\ snd (transform_record v) = VDict d'
        /\ List.map fst d' = List.map fst d
        /\ forall k, k <> LocationGeo -> lookup k d' = lookup k d).
Proof.
  destruct (transform_record_cases v)
    as [H | [(e' & H & He') | (d & g & lat & lon & -> & Hd & _ & _ & H)]].
  - rewrite H; simpl. destruct v; auto.
    right. exists entries, entries. auto.
  - rewrite H; simpl. destruct v; auto.
    right. exists entries, entries. auto.
  - right. exists d, (update LocationGeo (VStr (wkt_point lon lat)) d).
    rewrite H; simpl. repeat split.
    + apply Forall2_fst_map
        with (P := fun old new => fst new = fst old
                                  /\ (fst old <> LocationGeo
                                      -> snd new = snd old)).
      * intros a b0 Hab. apply Hab.
      * apply update_present_frame. congruence.
    + intros k Hk. now apply lookup_update_other.
Qed.

(** X7: the sub-fields are read in the order of the source: a mapping
    without "latitude" raises [KeyError] for "latitude" whether "longitude"
    is there or not; [KeyError] for "longitude" means that "latitude" was
    found. *)
Theorem transform_record_latitude_first (d g : dict) :
  lookup LocationGeo d = Some (VDict g) ->
  truthy (VDict g) = true ->
  (lookup latitude g = None ->
   transform_record (VDict d) = (Raise (KeyError latitude), VDict d))
  /\ (transform_record (VDict d) = (Raise (KeyError longitude), VDict d) ->
      lookup latitude g <> None /\ lookup longitude g = None).
Proof.
  intros Hd Hg. rewrite (transform_record_truthy _ Hd Hg). split.
  - intros Hlat. now rewrite (getitem_missing _ _ Hlat).
  - destruct (lookup latitude g) as [lat|] eqn:Hlat.
    + rewrite (getitem_present _ _ Hlat).
      destruct (lookup longitude g) as [lon|] eqn:Hlon.
      * rewrite (getitem_present _ _ Hlon). discriminate.
      * intros _. split; [discriminate | reflexivity].
    + rewrite (getitem_missing _ _ Hlat). discriminate.
Qed.

(** X8: only the two coordinates of the mapping reach the result: the call
    ends as it would had the mapping held "latitude" and "longitude" and
    nothing else. *)
Theorem transform_record_drops_subfields (d g : dict) (LAT LON : value) :
  lookup LocationGeo d = Some (VDict g) ->
  lookup latitude g = Some LAT ->
  lookup longitude g = Some LON ->
  transform_record (VDict d)
  = transform_record
      (VDict (update LocationGeo
                (VDict [(latitude, LAT); (longitude, LON)]) d)).
Proof.
  intros Hd Hlat Hlon.
  rewrite (transform_record_truthy _ Hd (lookup_some_truthy _ _ Hlat)).
  rewrite (transform_record_truthy _
             (lookup_update_same LocationGeo _ d)
             (eq_refl : truthy (VDict [(latitude, LAT); (longitude, LON)])
                        = true)).
  rewrite (getitem_present _ _ Hlat), (getitem_present _ _ Hlon).
  change (getitem (VDict [(latitude, LAT); (longitude, LON)]) latitude)
    with (Ok LAT).
  change (getitem (VDict [(latitude, LAT); (longitude, LON)]) longitude)
    with (Ok LON).
  cbv beta iota zeta. now rewrite update_update.
Qed.

(** ** Further properties of [main] *)

Lemma main_cons line rest stdout :
  main (line :: rest) stdout =
    if whitespace_only line then main rest stdout
    else match processed line with
         | Ok out => main rest (stdout ++ [out])
         | Raise e => (Raise e, stdout)
         end.
Proof.
  unfold main; simpl. unfold bind at 1. rewrite main_body_eq.
  destruct (whitespace_only line); [reflexivity|].
  destruct (processed line); reflexivity.
Qed.

(** What is already on standard output has no influence on a run. *)
Lemma main_shift stdin : forall stdout,
  main stdin stdout = (fst (main stdin []), stdout ++ snd (main stdin [])).
Proof.
  induction stdin as [|line rest IH]; intros out.
  - simpl. now rewrite app_nil_r.
  - rewrite !main_cons.
    destruct (whitespace_only line); [apply IH|].
    destruct (processed line) as [o|e]; simpl.
    + rewrite (IH (out ++ [o])), (IH [o]). simpl. now rewrite <- app_assoc.
    + now rewrite app_nil_r.
Qed.


(** A run that raises stopped at a non-blank line that could not be
    processed, after an error-free part of the stream. *)
Lemma main_raise_split stdin : forall e stdout,
  main stdin [] = (Raise e, stdout) ->
  exists before bad after,
    stdin = before ++ bad :: after
    /\ error_free before = true
    /\ whitespace_only bad = false
    /\ processed bad = Raise e
    /\ main before [] = (Ok tt, stdout).
Proof.
  induction stdin as [|line rest IH]; intros e out; [discriminate|].
  rewrite main_cons.
  destruct (whitespace_only line) eqn:Hb.
  - intros H. destruct (IH _ _ H) as (bf & bad & af & -> & Hef & Hnb & Hp & Hok).
    exists (line :: bf), bad, af. repeat split; auto.
    + unfold error_free, non_blank_lines in *. simpl. now rewrite Hb.
    + now rewrite main_cons, Hb.
  - destruct (processed line) as [o|e'] eqn:Hp.
    + rewrite main_shift. simpl.
      destruct (main rest []) as [r new] eqn:Hrest. simpl.
      intros [= -> <-].
      destruct (IH _ _ eq_refl)
        as (bf & bad & af & -> & Hef & Hnb & Hpb & Hok).
      exists (line :: bf), bad, af. repeat split; auto.
      * unfold error_free, non_blank_lines in *. simpl.
        rewrite Hb; simpl. now rewrite Hp.
      * rewrite main_cons, Hb, Hp, main_shift, Hok. reflexivity.
    + intros [= -> <-]. exists [], line, rest. repeat split; auto.
Qed.

Lemma main_stop before bad after e :
  error_free before = true ->
  whitespace_only bad = false ->
  processed bad = Raise e ->
  main (before ++ bad :: after) [] = (Raise e, snd (main before [])).
Proof.
  intros Hb Hnb Hp.
  destruct (@main_error_free before [] Hb) as (new & Hrun & _).
  unfold main in *. rewrite for_each_app, Hrun. simpl snd.
  change (for_each (bad :: after) main_body ([] ++ new))
    with (main (bad :: after) ([] ++ new)).
  now rewrite main_cons, Hnb, Hp.
Qed.

(** X9: a run started with lines already on standard output keeps them and
    appends to them exactly what it writes when started on an empty output,
    and it ends the same way. *)
Theorem main_output_appended (stdin stdout : list pystr) :
  exists new,
    main stdin [] = (fst (main stdin []), new)
    /\ main stdin stdout = (fst (main stdin []), stdout ++ new).
Proof.
  exists (snd (main stdin [])). split.
  - now destruct (main stdin []).
  - apply main_shift.
Qed.

(** X10: blank lines have no effect at all: the run over a stream is the
    run over its non-blank lines, in outcome and in output. *)
Theorem main_skips_blank (stdin stdout : list pystr) :
  main stdin stdout = main (non_blank_lines stdin) stdout.
Proof.
  revert stdout. unfold non_blank_lines.
  induction stdin as [|line rest IH]; intros out; [reflexivity|].
  rewrite main_cons. simpl.
  destruct (whitespace_only line) eqn:Hb; simpl; [apply IH|].
  rewrite main_cons, Hb.
  destruct (processed line); [apply IH | reflexivity].
Qed.

(** X11: a stream of blank lines only, the empty stream among them, ends
    normally and writes nothing, whatever the decoder would say of those
    lines. *)
Theorem main_blank_only (stdin stdout : list pystr) :
  forallb whitespace_only stdin = true ->
  main stdin stdout = (Ok tt, stdout).
Proof.
  revert stdout. induction stdin as [|line rest IH]; intros out; simpl.
  - reflexivity.
  - rewrite andb_true_iff. intros [Hb Hrest].
    rewrite main_cons, Hb. now apply IH.
Qed.

(** X12: the first line that cannot be processed ends the run with its own
    exception, be it raised by the decoder or by [transform_record]; the
    output is what the lines before it produced. *)
Theorem main_fail_fast (before after : list pystr) (bad : pystr)
        (record : value) (e : exn) :
  error_free before = true ->
  whitespace_only bad = false ->
  loads bad = Some record ->
  fst (transform_record record) = Raise e ->
  exists stdout,
    main before [] = (Ok tt, stdout)
    /\ length stdout = length (non_blank_lines before)
    /\ main (before ++ bad :: after) [] = (Raise e, stdout).
Proof.
  intros Hb Hnb Hl Ht.
  assert (Hp : processed bad = Raise e).
  { unfold processed. now rewrite Hl, Ht. }
  destruct (@main_error_free before [] Hb) as (new & Hrun & HF).
  simpl in Hrun. exists new. split; [exact Hrun|].
  split; [symmetry; exact (Forall2_length HF)|].
  rewrite (@main_stop before bad after e Hb Hnb Hp). now rewrite Hrun.
Qed.

(** X13: a run that raises stopped at a non-blank line whose processing
    raises that exception; the lines before it form an error-free stream
    whose run gives the output, and the lines after it are never read: any
    others in their place give the same run. *)
Theorem main_raise_decomposition (stdin stdout : list pystr) (e : exn) :
  main stdin [] = (Raise e, stdout) ->
  exists before bad after,
    stdin = before ++ bad :: after
    /\ error_free before = true
    /\ whitespace_only bad = false
    /\ processed bad = Raise e
    /\ main before [] = (Ok tt, stdout)
    /\ forall others, main (before ++ bad :: others) [] = (Raise e, stdout).
Proof.
  intros H.
  destruct (main_raise_split _ H) as (bf & bad & af & -> & Hef & Hnb & Hp & Hok).
  exists bf, bad, af. repeat split; auto.
  intros others. rewrite (@main_stop bf bad others e Hef Hnb Hp). now rewrite Hok.
Qed.


(** X15: a run never writes more lines than the stream has non-blank lines;
    it writes that many exactly when it ends normally, and fewer when it
    raises. *)
Theorem main_output_bound (stdin : list pystr) :
  length (snd (main stdin [])) <= length (non_blank_lines stdin)
  /\ (fst (main stdin []) = Ok tt
      <-> length (snd (main stdin [])) = length (non_blank_lines stdin)).
Proof.
  destruct (main stdin []) as [[[]|e] out] eqn:Hm; simpl.
  - pose proof (main_ok_error_free _ _ Hm) as Hef.
    destruct (@main_error_free stdin [] Hef) as (new & Hrun & HF).
    rewrite Hm in Hrun. injection Hrun as ->.
    rewrite (Forall2_length HF). split; [lia | tauto].
  - destruct (main_raise_split _ Hm)
      as (bf & bad & af & -> & Hef & Hnb & _ & Hok).
    destruct (@main_error_free bf [] Hef) as (new & Hrun & HF).
    rewrite Hok in Hrun. injection Hrun as ->.
    unfold non_blank_lines in *. rewrite filter_app, length_app; simpl.
    rewrite Hnb; simpl. rewrite <- (Forall2_length HF).
    split; [lia|]. split; [discriminate | lia].
Qed.

(** X16: streams compose.  After an error-free stream the run goes on as a
    run of its own over what follows, its output appended; after a stream
    that raises, what follows is never read. *)
Theorem main_concat (first second : list pystr) :
  (error_free first = true ->
   main (first ++ second) []
   = (fst (main second []), snd (main first []) ++ snd (main second [])))
  /\ (error_free first = false ->
      main (first ++ second) [] = main first []).
Proof.
  assert (E : main (first ++ second) [] =
              match main first [] with
              | (Ok _, out) => main second out
              | (Raise e, out) => (Raise e, out)
              end) by (unfold main; apply for_each_app).
  rewrite E. split; intros Hef.
  - destruct (@main_error_free first [] Hef) as (new & Hrun & _).
    rewrite Hrun; simpl. apply main_shift.
  - destruct (main first []) as [[[]|e] out] eqn:Hm; [|reflexivity].
    rewrite (main_ok_error_free _ _ Hm) in Hef. discriminate.
Qed.

(** ** The WKT string of integer coordinates *)

Lemma lit_inj (s t : string) : lit s = lit t -> s = t.
Proof.
  unfold lit. intros H.
  rewrite <- (string_of_list_ascii_of_string s),
          <- (string_of_list_ascii_of_string t).
  f_equal. revert H.
  generalize (list_ascii_of_string s) (list_ascii_of_string t).
  induction l as [|a l IH]; intros [|b l']; simpl; try discriminate; auto.
  intros [= Hab Hl]. f_equal; [|now apply IH].
  rewrite <- (ascii_N_embedding a), <- (ascii_N_embedding b). now rewrite Hab.
Qed.

Lemma to_int_proper (n : Z) :
  Z.to_int n <> Decimal.Pos Decimal.Nil /\ Z.to_int n <> Decimal.Neg Decimal.Nil.
Proof.
  destruct n as [|p|p]; simpl; split; try discriminate;
    intros [= H]; exact (DecimalPos.Unsigned.to_uint_nonnil p H).
Qed.

(** [str] is one-to-one on integers. *)
Lemma of_int_inj (a b : Z) : of_int a = of_int b -> a = b.
Proof.
  unfold of_int. intros H. apply lit_inj in H.
  apply DecimalZ.to_int_inj.
  destruct (to_int_proper a) as [Ha1 Ha2], (to_int_proper b) as [Hb1 Hb2].
  pose proof (NilZero.isi (Z.to_int a) Ha1 Ha2) as Ea.
  pose proof (NilZero.isi (Z.to_int b) Hb1 Hb2) as Eb.
  rewrite H in Ea. rewrite Ea in Eb. now injection Eb.
Qed.

Lemma lit_cons (c : ascii) (s : string) :
  lit (String c s) = N_of_ascii c :: lit s.
Proof. reflexivity. Qed.

Lemma digits_no_space (d : Decimal.uint) :
  ~ In 32%N (lit (NilEmpty.string_of_uint d)).
Proof.
  induction d; simpl NilEmpty.string_of_uint; [intros [] | ..];
    rewrite lit_cons; intros [H|H]; auto; vm_compute in H; discriminate.
Qed.

(** The decimal form of an integer holds no space. *)
Lemma of_int_no_space (n : Z) : ~ In 32%N (of_int n).
Proof.
  unfold of_int.
  assert (Hu : forall d, ~ In 32%N (lit (NilZero.string_of_uint d))).
  { intros d. destruct d; try apply digits_no_space.
    intros [H|[]]; vm_compute in H; discriminate. }
  destruct (Z.to_int n) as [d|d]; simpl NilZero.string_of_int.
  - apply Hu.
  - rewrite lit_cons. intros [H|H]; [vm_compute in H; discriminate|].
    exact (Hu d H).
Qed.

Lemma split_at_separator (x : codepoint) (a a' b b' : pystr) :
  ~ In x a -> ~ In x a' ->
  a ++ x :: b = a' ++ x :: b' -> a = a' /\ b = b'.
Proof.
  revert a'. induction a as [|c a IH]; intros [|c' a'] Ha Ha'; simpl.
  - intros [= ->]. auto.
  - intros [= <- _]. exfalso. apply Ha'. now left.
  - intros [= -> _]. exfalso. apply Ha. now left.
  - intros [= -> H]. destruct (IH a') as [-> ->]; auto.
    + intros Hi. apply Ha. now right.
    + intros Hi. apply Ha'. now right.
Qed.

(** X17: on integer coordinates the WKT string determines both of them: two
    pairs of integers with the same string are the same pair. *)
Theorem wkt_point_int_injective (lon lat lon' lat' : Z) :
  wkt_point (VInt lon) (VInt lat) = wkt_point (VInt lon') (VInt lat') ->
  lon = lon' /\ lat = lat'.
Proof.
  unfold wkt_point; simpl format. intros H.
  apply app_inv_head in H.
  change (lit " " ++ of_int lat ++ lit ")")
    with (32%N :: of_int lat ++ lit ")") in H.
  change (lit " " ++ of_int lat' ++ lit ")")
    with (32%N :: of_int lat' ++ lit ")") in H.
  apply split_at_separator in H; try apply of_int_no_space.
  destruct H as [Hlon Hlat]. apply app_inv_tail in Hlat.
  split; now apply of_int_inj.
Qed.

(** X18: end to end, a non-blank line that decodes to a record with both
    coordinates makes the run append one line, the encoding of that record
    with [LocationGeo] replaced by "POINT(LON LAT)", and go on with the
    lines that follow. *)
Theorem main_writes_wkt (line : pystr) (rest stdout : list pystr)
        (d g : dict) (LAT LON : value) :
  whitespace_only line = false ->
  loads line = Some (VDict d) ->
  lookup LocationGeo d = Some (VDict g) ->
  lookup latitude g = Some LAT ->
  lookup longitude g = Some LON ->
  main (line :: rest) stdout
  = main rest
      (stdout
       ++ [dumps (VDict (update LocationGeo
                           (VStr (lit "POINT(" ++ format LON ++ lit " "
                                  ++ format LAT ++ lit ")"))
                           d))]).
Proof.
  intros Hnb Hl Hd Hlat Hlon.
  rewrite main_cons, Hnb. unfold processed. rewrite Hl.
  rewrite (transform_record_truthy _ Hd (lookup_some_truthy _ _ Hlat)).
  rewrite (getitem_present _ _ Hlat), (getitem_present _ _ Hlon).
  reflexivity.
Qed.

End Runtime.

(** ** The theorems at work on the sample runtime *)

Example strip_example : strip (lit "  a b " ++ Sample.newline) = lit "a b".
Proof. reflexivity. Qed.

Example isspace_example :
  List.map isspace [32; 9; 160; 8203; 12288; 97]%N
  = [true; true; true; false; true; false].
Proof. reflexivity. Qed.

Example main_example :
  main Sample.float_repr Sample.str_repr Sample.loads Sample.dumps
       Sample.stdin []
  = (Ok tt, Sample.stdout).
Proof. vm_compute. reflexivity. Qed.

(** Decoded values that are not dictionaries: a number is not a container,
    a list without the string is returned as it is, a string that contains
    the key cannot be indexed by it. *)
Example transform_record_non_dict_example :
  fst (transform_record Sample.float_repr Sample.str_repr (VInt 7))
  = Raise TypeError
  /\ fst (transform_record Sample.float_repr Sample.str_repr
             (VList [VStr (lit "x")]))
     = Ok (VList [VStr (lit "x")])
  /\ fst (transform_record Sample.float_repr Sample.str_repr
             (VStr (lit "a LocationGeo")))
     = Raise TypeError.
Proof. vm_compute. auto. Qed.

(** *** Instances of the theorems on sample records and streams *)

Lemma transform_record_wkt_witness :
  exists d',
    transform_record Sample.float_repr Sample.str_repr Sample.rec_geo
    = (Ok (VDict d'), VDict d')
    /\ lookup LocationGeo d' = Some (VStr (lit "POINT(-122 37)")).
Proof.
  exact (@transform_record_wkt Sample.float_repr Sample.str_repr
           [(lit "id", VInt 1);
            (LocationGeo, VDict [(latitude, VInt 37); (longitude, VInt (-122))])]
           [(latitude, VInt 37); (longitude, VInt (-122))]
           (VInt 37) (VInt (-122)) eq_refl eq_refl eq_refl).
Defined.

Lemma transform_record_frame_witness :
  exists d',
    snd (transform_record Sample.float_repr Sample.str_repr Sample.rec_geo)
    = VDict d'
    /\ List.map fst d' = [lit "id"; LocationGeo]
    /\ lookup (lit "id") d' = Some (VInt 1).
Proof.
  destruct (@transform_record_frame Sample.float_repr Sample.str_repr
              [(lit "id", VInt 1);
               (LocationGeo,
                VDict [(latitude, VInt 37); (longitude, VInt (-122))])]
              [(latitude, VInt 37); (longitude, VInt (-122))]
              eq_refl eq_refl)
    as (d' & Hsnd & _ & Hkeys & Hother).
  exists d'. split; [exact Hsnd|]. split.
  - exact (Forall2_fst_map (fun a b H => proj1 H) Hkeys).
  - apply Hother. discriminate.
Defined.

Lemma transform_record_passthrough_witness :
  transform_record Sample.float_repr Sample.str_repr Sample.rec_id
  = (Ok Sample.rec_id, Sample.rec_id)
  /\ transform_record Sample.float_repr Sample.str_repr Sample.rec_null
     = (Ok Sample.rec_null, Sample.rec_null).
Proof.
  split.
  - exact (@transform_record_passthrough Sample.float_repr Sample.str_repr
             [(lit "id", VInt 3)] (or_introl eq_refl)).
  - exact (@transform_record_passthrough Sample.float_repr Sample.str_repr
             [(lit "id", VInt 2); (LocationGeo, VNone)] (or_intror eq_refl)).
Defined.

Lemma transform_record_missing_key_witness :
  exists k,
    (k = latitude \/ k = longitude)
    /\ lookup k [(latitude, VInt 1)] = None
    /\ transform_record Sample.float_repr Sample.str_repr Sample.rec_no_lon
       = (Raise (KeyError k), Sample.rec_no_lon)
    /\ forall (St : Type) (s : St),
         call (transform_record Sample.float_repr Sample.str_repr)
              Sample.rec_no_lon s
         = (Raise (KeyError k), s).
Proof.
  exact (@transform_record_missing_key Sample.float_repr Sample.str_repr
           [(lit "id", VInt 4); (LocationGeo, VDict [(latitude, VInt 1)])]
           [(latitude, VInt 1)] eq_refl eq_refl (or_intror eq_refl)).
Defined.

Lemma transform_record_not_mapping_witness :
  getitem (VStr (lit "here")) latitude = Raise TypeError
  /\ transform_record Sample.float_repr Sample.str_repr Sample.rec_text
     = (Raise TypeError, Sample.rec_text).
Proof.
  exact (@transform_record_not_mapping Sample.float_repr Sample.str_repr
           [(lit "id", VInt 5); (LocationGeo, VStr (lit "here"))]
           (VStr (lit "here")) eq_refl eq_refl eq_refl).
Defined.

Lemma transform_record_falsy_unchanged_witness :
  transform_record Sample.float_repr Sample.str_repr Sample.rec_zero
  = (Ok Sample.rec_zero, Sample.rec_zero).
Proof.
  apply (@transform_record_falsy_unchanged Sample.float_repr Sample.str_repr
           [(lit "id", VInt 6); (LocationGeo, VInt 0)] (VInt 0) eq_refl).
  left. simpl. tauto.
Defined.

Lemma transform_record_twice_witness :
  exists r s,
    transform_record Sample.float_repr Sample.str_repr Sample.rec_geo
    = (Ok r, r)
    /\ getitem r LocationGeo = Ok (VStr s)
    /\ truthy (VStr s) = true
    /\ transform_record Sample.float_repr Sample.str_repr r
       = (Raise TypeError, r).
Proof.
  exact (@transform_record_twice Sample.float_repr Sample.str_repr
           [(lit "id", VInt 1);
            (LocationGeo, VDict [(latitude, VInt 37); (longitude, VInt (-122))])]
           [(latitude, VInt 37); (longitude, VInt (-122))]
           (VInt 37) (VInt (-122)) eq_refl eq_refl eq_refl).
Defined.

Lemma main_line_count_witness :
  List.length Sample.stdin = 5
  /\ List.length (blank_lines Sample.stdin) = 2
  /\ exists stdout,
       main Sample.float_repr Sample.str_repr Sample.loads Sample.dumps
            Sample.stdin []
       = (Ok tt, stdout)
       /\ List.length stdout = 5 - 2.
Proof.
  split; [reflexivity|]. split; [reflexivity|].
  destruct (@main_line_count Sample.float_repr Sample.str_repr Sample.loads
              Sample.dumps Sample.stdin eq_refl)
    as (stdout & Hrun & Hlen & _).
  exists stdout. split; [exact Hrun | exact Hlen].
Defined.

Lemma main_order_witness :
  nth_error (non_blank_lines Sample.stdin) 1
  = Some (Sample.dumps Sample.rec_null ++ Sample.newline)
  /\ exists stdout record transformed,
       main Sample.float_repr Sample.str_repr Sample.loads Sample.dumps
            Sample.stdin []
       = (Ok tt, stdout)
       /\ Sample.loads (Sample.dumps Sample.rec_null ++ Sample.newline)
          = Some record
       /\ fst (transform_record Sample.float_repr Sample.str_repr record)
          = Ok transformed
       /\ nth_error stdout 1 = Some (Sample.dumps transformed).
Proof.
  split; [reflexivity|].
  destruct (@main_order Sample.float_repr Sample.str_repr Sample.loads
              Sample.dumps Sample.stdin eq_refl)
    as (stdout & Hrun & _ & Hnth).
  destruct (Hnth 1 _ eq_refl) as (record & t & H).
  exists stdout, record, t. split; [exact Hrun | exact H].
Defined.

Lemma main_fatal_on_malformed_witness :
  exists stdout,
    main Sample.float_repr Sample.str_repr Sample.loads Sample.dumps
         (Sample.stdin ++ lit "not valid json" :: Sample.stdin) []
    = (Raise JSONDecodeError, stdout)
    /\ main Sample.float_repr Sample.str_repr Sample.loads Sample.dumps
            Sample.stdin []
       = (Ok tt, stdout).
Proof.
  destruct (@main_fatal_on_malformed Sample.float_repr Sample.str_repr
              Sample.loads Sample.dumps Sample.stdin Sample.stdin
              (lit "not valid json") eq_refl eq_refl eq_refl)
    as (stdout & Hbad & Hok & _).
  exists stdout. split; [exact Hbad | exact Hok].
Defined.


(** *** Instances of the further properties *)

Lemma transform_record_scalar_fatal_witness :
  transform_record Sample.float_repr Sample.str_repr (VInt 7)
  = (Raise TypeError, VInt 7)
  /\ main Sample.float_repr Sample.str_repr MoreSamples.loads Sample.dumps
          ((lit "7" ++ Sample.newline) :: Sample.stdin) Sample.stdout
     = (Raise TypeError, Sample.stdout).
Proof.
  destruct (@transform_record_scalar_fatal Sample.float_repr Sample.str_repr
              MoreSamples.loads Sample.dumps (VInt 7) eq_refl)
    as [Hcall Hrun].
  split; [exact Hcall|].
  exact (Hrun (lit "7" ++ Sample.newline) Sample.stdin Sample.stdout
              eq_refl eq_refl).
Defined.

Lemma transform_record_raise_frame_witness :
  transform_record Sample.float_repr Sample.str_repr Sample.rec_no_lon
  = (Raise (KeyError longitude), Sample.rec_no_lon)
  /\ (KeyError longitude = TypeError
      \/ KeyError longitude = KeyError latitude
      \/ KeyError longitude = KeyError longitude).
Proof.
  exact (@transform_record_raise_frame Sample.float_repr Sample.str_repr
           Sample.rec_no_lon (KeyError longitude) eq_refl).
Defined.

Lemma transform_record_again_witness :
  snd (transform_record Sample.float_repr Sample.str_repr Sample.rec_geo)
  = Sample.rec_geo_wkt
  /\ ((Sample.rec_geo_wkt = Sample.rec_geo
       /\ transform_record Sample.float_repr Sample.str_repr
            Sample.rec_geo_wkt
          = (Ok Sample.rec_geo_wkt, Sample.rec_geo_wkt))
      \/ (Sample.rec_geo_wkt <> Sample.rec_geo
          /\ transform_record Sample.float_repr Sample.str_repr
               Sample.rec_geo_wkt
             = (Raise TypeError, Sample.rec_geo_wkt))).
Proof.
  exact (@transform_record_again Sample.float_repr Sample.str_repr
           Sample.rec_geo Sample.rec_geo_wkt eq_refl).
Defined.

Lemma transform_record_latitude_first_witness :
  transform_record Sample.float_repr Sample.str_repr
                   MoreSamples.rec_no_coords
  = (Raise (KeyError latitude), MoreSamples.rec_no_coords).
Proof.
  exact (proj1 (@transform_record_latitude_first
                  Sample.float_repr Sample.str_repr
                  [(lit "id", VInt 9);
                   (LocationGeo, VDict [(lit "altitude", VInt 5)])]
                  [(lit "altitude", VInt 5)] eq_refl eq_refl)
               eq_refl).
Defined.

Lemma transform_record_drops_subfields_witness :
  transform_record Sample.float_repr Sample.str_repr
                   MoreSamples.rec_altitude
  = transform_record Sample.float_repr Sample.str_repr
      (VDict [(lit "id", VInt 8);
              (LocationGeo,
               VDict [(latitude, VInt 37); (longitude, VInt (-122))])]).
Proof.
  exact (@transform_record_drops_subfields Sample.float_repr Sample.str_repr
           [(lit "id", VInt 8);
            (LocationGeo,
             VDict [(lit "altitude", VInt 5); (latitude, VInt 37);
                    (longitude, VInt (-122))])]
           [(lit "altitude", VInt 5); (latitude, VInt 37);
            (longitude, VInt (-122))]
           (VInt 37) (VInt (-122)) eq_refl eq_refl eq_refl).
Defined.

Lemma main_blank_only_witness :
  main Sample.float_repr Sample.str_repr Sample.loads Sample.dumps
       [Sample.newline; lit "  " ++ Sample.newline; []] Sample.stdout
  = (Ok tt, Sample.stdout).
Proof.
  exact (@main_blank_only Sample.float_repr Sample.str_repr Sample.loads
           Sample.dumps [Sample.newline; lit "  " ++ Sample.newline; []]
           Sample.stdout eq_refl).
Defined.

Lemma main_fail_fast_witness :
  exists stdout,
    main Sample.float_repr Sample.str_repr MoreSamples.loads Sample.dumps
         Sample.stdin []
    = (Ok tt, stdout)
    /\ List.length stdout = 3
    /\ main Sample.float_repr Sample.str_repr MoreSamples.loads Sample.dumps
           (Sample.stdin ++ Sample.dumps Sample.rec_no_lon :: Sample.stdin)
           []
       = (Raise (KeyError longitude), stdout).
Proof.
  exact (@main_fail_fast Sample.float_repr Sample.str_repr MoreSamples.loads
           Sample.dumps Sample.stdin Sample.stdin
           (Sample.dumps Sample.rec_no_lon) Sample.rec_no_lon
           (KeyError longitude) eq_refl eq_refl eq_refl eq_refl).
Defined.

Lemma main_raise_decomposition_witness :
  exists before bad after,
    Sample.stdin ++ [lit "not valid json"; Sample.dumps Sample.rec_id]
    = before ++ bad :: after
    /\ whitespace_only bad = false
    /\ main Sample.float_repr Sample.str_repr Sample.loads Sample.dumps
           before []
       = (Ok tt, Sample.stdout).
Proof.
  destruct (@main_raise_decomposition Sample.float_repr Sample.str_repr
              Sample.loads Sample.dumps
              (Sample.stdin
               ++ [lit "not valid json"; Sample.dumps Sample.rec_id])
              Sample.stdout JSONDecodeError)
    as (before & bad & after & Hsplit & _ & Hnb & _ & Hok & _).
  - vm_compute. reflexivity.
  - exists before, bad, after. auto.
Defined.


Lemma main_concat_witness :
  main Sample.float_repr Sample.str_repr Sample.loads Sample.dumps
       (Sample.stdin ++ Sample.stdin) []
  = (Ok tt, Sample.stdout ++ Sample.stdout).
Proof.
  exact (proj1 (@main_concat Sample.float_repr Sample.str_repr Sample.loads
                  Sample.dumps Sample.stdin Sample.stdin)
               eq_refl).
Defined.

Lemma wkt_point_int_injective_witness : (-122 = -122 /\ 37 = 37)%Z.
Proof.
  exact (@wkt_point_int_injective Sample.float_repr Sample.str_repr
           (-122) 37 (-122) 37 eq_refl).
Defined.

Lemma main_writes_wkt_witness :
  main Sample.float_repr Sample.str_repr Sample.loads Sample.dumps
       [Sample.dumps Sample.rec_geo ++ Sample.newline] []
  = (Ok tt, [Sample.dumps Sample.rec_geo_wkt]).
Proof.
  exact (@main_writes_wkt Sample.float_repr Sample.str_repr Sample.loads
           Sample.dumps (Sample.dumps Sample.rec_geo ++ Sample.newline)
           [] []
           [(lit "id", VInt 1);
            (LocationGeo,
             VDict [(latitude, VInt 37); (longitude, VInt (-122))])]
           [(latitude, VInt 37); (longitude, VInt (-122))]
           (VInt 37) (VInt (-122))
           eq_refl eq_refl eq_refl eq_refl eq_refl).
Defined.
